(** * FileGDB identifier-remap repair: row-offset table and index rewriters

    Shallow embedding of the FID-hack repair code of
    [ogr/ogrsf_frmts/filegdb/FGdbLayer.cpp]:
    [EditIndexesForFIDHack], [EditATXOrSPX], [FGdbLayerSortATX],
    [UpdateNextOGRFIDAndFGDBFID], [EditGDBTablX], [DeleteFeature] and
    [ISetFeature].

    Conventions.
    - A byte is a [Z] in [0, 256); a file or a buffer is a [list Z].
    - A C [int] is a [Z]; where the source computes in [int] and the value
      may leave the 32-bit range, the wrap-around is written [to_int32].
    - C [/] and [%] are [Z.quot] and [Z.rem].
    - [std::map<int,int>] is a key-sorted association list; an iterator is
      the suffix of the list that starts at the element it points to.
    - A file handle carries the file's bytes and the current position. *)

From Stdlib Require Import ZArith List Lia Bool.
From stdpp Require Import gmap strings list.

Open Scope Z_scope.

(** ** Machine integers *)

Definition INT_MAX : Z := 2147483647.

Definition to_int32 (z : Z) : Z := (z + 2147483648) mod 4294967296 - 2147483648.

Definition to_uint32 (z : Z) : Z := z mod 4294967296.

Definition to_uint64 (z : Z) : Z := z mod 18446744073709551616.

(** ** Byte buffers *)

Definition zeros (n : Z) : list Z := replicate (Z.to_nat n) 0.

(** [n] bytes of [buf] from offset [off] (fewer when [buf] is too short). *)
Definition sub (buf : list Z) (off n : Z) : list Z :=
  take (Z.to_nat n) (drop (Z.to_nat off) buf).

(** [memcpy (dst + off, src, length src)]. *)
Definition memcpy (dst : list Z) (off : Z) (src : list Z) : list Z :=
  take (Z.to_nat off) dst ++ src ++ drop (Z.to_nat off + length src)%nat dst.

(** [memset (dst + off, 0, n)]. *)
Definition memset0 (dst : list Z) (off n : Z) : list Z :=
  memcpy dst off (zeros n).

(** [memcmp (a, b, n) == 0] on two buffers already cut to [n] bytes. *)
Fixpoint bytes_eqb (a b : list Z) : bool :=
  match a, b with
  | [], [] => true
  | x :: a', y :: b' => (x =? y) && bytes_eqb a' b'
  | _, _ => false
  end.

(** Little-endian decoding of a 4-byte group as a signed [int]
    ([memcpy] into an [int] followed by [CPL_LSBPTR32]); a group cut short
    leaves the missing high bytes at zero. *)
Definition le32 (b : list Z) : Z :=
  to_int32 (nth 0 b 0 + 256 * nth 1 b 0 + 65536 * nth 2 b 0
            + 16777216 * nth 3 b 0).

(** [CPL_LSBWORD32 (n)] stored byte by byte. *)
Definition put32 (n : Z) : list Z :=
  let u := to_uint32 n in
  [u mod 256; (u / 256) mod 256; (u / 65536) mod 256; (u / 16777216) mod 256].

(** [GetInt32 (pBaseAddr, iOffset)]. *)
Definition GetInt32 (pBaseAddr : list Z) (iOffset : Z) : Z :=
  le32 (sub pBaseAddr (4 * iOffset) 4).

(** An array of [int] stored little-endian. *)
Fixpoint decode_ints (n : nat) (b : list Z) : list Z :=
  match n with
  | O => []
  | S n' => le32 (take 4 b) :: decode_ints n' (drop 4 b)
  end.

Definition encode_ints (l : list Z) : list Z := concat (map put32 l).

(** ** Seekable files (the VSI*L layer) *)

Record VSILFILE := mkFile { f_data : list Z; f_pos : Z }.

(** [VSIFSeekL (fp, off, SEEK_SET)]: the offset is a [vsi_l_offset]
    (unsigned 64-bit). *)
Definition VSIFSeekL_SET (fp : VSILFILE) (off : Z) : VSILFILE :=
  mkFile (f_data fp) (to_uint64 off).

Definition VSIFSeekL_CUR (fp : VSILFILE) (off : Z) : VSILFILE :=
  mkFile (f_data fp) (to_uint64 (f_pos fp + off)).

Definition VSIFSeekL_END (fp : VSILFILE) : VSILFILE :=
  mkFile (f_data fp) (Z.of_nat (length (f_data fp))).

Definition VSIFTellL (fp : VSILFILE) : Z := f_pos fp.

(** [VSIFReadL]: the bytes obtained (none past the end of the file) and the
    handle advanced by as many bytes. *)
Definition VSIFReadL (n : Z) (fp : VSILFILE) : list Z * VSILFILE :=
  let got := sub (f_data fp) (f_pos fp) n in
  (got, mkFile (f_data fp) (f_pos fp + Z.of_nat (length got))).

(** The bytes a read of [n] bytes leaves in a buffer that held [old]:
    what was read, followed by the part of [old] not overwritten. *)
Definition read_into (old got : list Z) : list Z :=
  got ++ drop (length got) old.

(** [VSIFWriteL]: writing past the end first fills the gap with zeros;
    the write is refused when it would end beyond the largest file offset. *)
Definition VSIFWriteL (bytes : list Z) (fp : VSILFILE) : bool * VSILFILE :=
  let n := Z.of_nat (length bytes) in
  if f_pos fp + n >? 9223372036854775807 then (false, fp)
  else
    let d := f_data fp in
    let p := Z.to_nat (f_pos fp) in
    let d' := take p d ++ replicate (p - length d)%nat 0 ++ bytes
              ++ drop (p + length bytes)%nat d in
    (true, mkFile d' (f_pos fp + n)).

(** ** [std::map<int, int>] *)

Definition stdmap := list (Z * Z).

(** [m.find (k)], as the mapped value when found. *)
Fixpoint map_find (k : Z) (m : stdmap) : option Z :=
  match m with
  | [] => None
  | (k', v) :: m' => if k' =? k then Some v else map_find k m'
  end.

(** Insertion at the key's place in the order when the key is absent. *)
Fixpoint map_insert_absent (k v : Z) (m : stdmap) : stdmap :=
  match m with
  | [] => [(k, v)]
  | (k', v') :: m' =>
      if k <? k' then (k, v) :: m
      else if k =? k' then m
      else (k', v') :: map_insert_absent k v m'
  end.

(** [m[k]] used as an rvalue: the mapped value, and the map, in which a
    missing key has been inserted with the value-initialised [0]. *)
Definition map_index (k : Z) (m : stdmap) : Z * stdmap :=
  match map_find k m with
  | Some v => (v, m)
  | None => (0, map_insert_absent k 0 m)
  end.

(** [m[k] = v]. *)
Fixpoint map_assign (k v : Z) (m : stdmap) : stdmap :=
  match m with
  | [] => [(k, v)]
  | (k', v') :: m' =>
      if k <? k' then (k, v) :: m
      else if k =? k' then (k, v) :: m'
      else (k', v') :: map_assign k v m'
  end.


Definition map_mem (k : Z) (m : stdmap) : bool :=
  match map_find k m with Some _ => true | None => false end.

(** The class invariant of [std::map]: keys strictly ascending. *)
Fixpoint keys_sorted (m : stdmap) : Prop :=
  match m with
  | [] => True
  | (k, _) :: m' =>
      match m' with
      | [] => True
      | (k', _) :: _ => k < k' /\ keys_sorted m'
      end
  end.

(** ** [FGdbLayerSortATX] and [qsort] *)

(** The comparator: [-1], [1], and [0] after the (compiled-out) assertion
    on equal keys. *)
Definition FGdbLayerSortATX (a b : Z) : Z :=
  if a <? b then -1 else if a >? b then 1 else 0.

Fixpoint qsort_insert (x : Z) (l : list Z) : list Z :=
  match l with
  | [] => [x]
  | y :: l' =>
      if FGdbLayerSortATX x y <=? 0 then x :: l
      else y :: qsort_insert x l'
  end.

(** [qsort] with [FGdbLayerSortATX]: the comparator is a total order on
    the integers, so the result is the ascending arrangement whatever the
    algorithm. *)
Definition qsort (l : list Z) : list Z := foldr qsort_insert [] l.

(** ** The index editor: [FGdbLayer::EditATXOrSPX] *)

Module Index.

(** The layer member and the accumulators the recursive overload receives
    by reference, together with the open file. *)
Record State := mkState {
  fp : VSILFILE;
  m_oMapFGDBFIDToOGRFID : stdmap;
  nLastPageVisited : Z;
  pabyLastIndexedValue : list Z;
  bIndexedValueIsValid : bool;
  nFirstIndexAtThisValue : Z;
  anPagesAtThisValue : list Z;
  bSortThisValue : bool;
  bInvalidateIndex : bool
}.

Definition set_fp (f : VSILFILE) (s : State) : State :=
  mkState f (m_oMapFGDBFIDToOGRFID s) (nLastPageVisited s)
    (pabyLastIndexedValue s) (bIndexedValueIsValid s)
    (nFirstIndexAtThisValue s) (anPagesAtThisValue s) (bSortThisValue s)
    (bInvalidateIndex s).

(** Byte offset of a page, computed in [int]. *)
Definition page_offset (nPage extra : Z) : Z :=
  to_int32 (to_int32 ((nPage - 1) * 4096) + extra).

(** [nFeaturesPrevPage], read without a check into an uninitialised
    [int] (taken as zero bytes where the read falls short). *)
Definition read_nFeaturesPrevPage (f : VSILFILE) (nPage : Z) : Z * VSILFILE :=
  let f1 := VSIFSeekL_SET f (page_offset nPage 4) in
  let '(got, f2) := VSIFReadL 4 f1 in
  (le32 (read_into (zeros 4) got), f2).

(** [VSIFReadL (&anValues[k], 4, n, fp)]: [n] entries, those not obtained
    keeping the zero [resize] gave them. *)
Definition read_values (f : VSILFILE) (n : Z) : list Z * VSILFILE :=
  let '(got, f') := VSIFReadL (4 * n) f in
  (decode_ints (Z.to_nat n) (read_into (zeros (4 * n)) got), f').

(** First loop over [anPagesAtThisValue]: collect the identifiers of the
    run into [anValues]. [j] is the index of the head of [pages]. *)
Fixpoint collect_run (pages : list Z) (j size nThisPage nFirst nLastPage : Z)
    (abyBuffer : list Z) (f : VSILFILE) (anValues : list Z)
    (bRewritePage : bool) : VSILFILE * list Z * bool :=
  match pages with
  | [] => (f, anValues, bRewritePage)
  | p :: rest =>
      let '(nFeaturesPrevPage, f1) := read_nFeaturesPrevPage f p in
      if j =? 0 then
        let f2 := VSIFSeekL_SET f1 (page_offset p (12 + 4 * nFirst)) in
        let '(vs, f3) := read_values f2 (nFeaturesPrevPage - nFirst) in
        collect_run rest (j + 1) size nThisPage nFirst nLastPage abyBuffer
          f3 (anValues ++ vs) bRewritePage
      else if (j =? size - 1) && (p =? nThisPage) then
        let vs := decode_ints (Z.to_nat nLastPage)
                    (sub abyBuffer 12 (4 * nLastPage)) in
        collect_run rest (j + 1) size nThisPage nFirst nLastPage abyBuffer
          f1 (anValues ++ vs) true
      else
        let f2 := VSIFSeekL_SET f1 (page_offset p 12) in
        let '(vs, f3) := read_values f2 nFeaturesPrevPage in
        collect_run rest (j + 1) size nThisPage nFirst nLastPage abyBuffer
          f3 (anValues ++ vs) bRewritePage
  end.

(** Second loop: write the sorted identifiers back to the same places.
    [anValues] is what is left of the sorted array from [nFeaturesToSort]. *)
Fixpoint store_run (pages : list Z) (j size nThisPage nFirst nLastPage : Z)
    (abyBuffer : list Z) (f : VSILFILE) (anValues : list Z)
    : VSILFILE * list Z :=
  match pages with
  | [] => (f, abyBuffer)
  | p :: rest =>
      let '(nFeaturesPrevPage, f1) := read_nFeaturesPrevPage f p in
      if j =? 0 then
        let n := Z.to_nat (nFeaturesPrevPage - nFirst) in
        let f2 := VSIFSeekL_SET f1 (page_offset p (12 + 4 * nFirst)) in
        let '(_, f3) := VSIFWriteL (encode_ints (take n anValues)) f2 in
        store_run rest (j + 1) size nThisPage nFirst nLastPage abyBuffer
          f3 (drop n anValues)
      else if (j =? size - 1) && (p =? nThisPage) then
        let n := Z.to_nat nLastPage in
        store_run rest (j + 1) size nThisPage nFirst nLastPage
          (memcpy abyBuffer 12 (encode_ints (take n anValues)))
          f1 (drop n anValues)
      else
        let n := Z.to_nat nFeaturesPrevPage in
        let f2 := VSIFSeekL_SET f1 (page_offset p 12) in
        let '(_, f3) := VSIFWriteL (encode_ints (take n anValues)) f2 in
        store_run rest (j + 1) size nThisPage nFirst nLastPage abyBuffer
          f3 (drop n anValues)
  end.

(** What one turn of the loop over the entries of a leaf page yields. *)
Inductive LeafStep :=
| Next (abyBuffer : list Z) (bRewritePage : bool) (s : State)
| Return (r : bool) (s : State).

(** The body of [for (int i = 0; i < nFeatures; i++)]. *)
Definition leaf_entry (nThisPage nSizeIndexedValue nNextPageID nFeatures i : Z)
    (abyBuffer : list Z) (bRewritePage : bool) (s : State) : LeafStep :=
  let nMaxPerPages := Z.quot (4096 - 12) (4 + nSizeIndexedValue) in
  let nOffsetFirstValInPage := 12 + nMaxPerPages * 4 in
  let value := sub abyBuffer (nOffsetFirstValInPage + i * nSizeIndexedValue)
                 nSizeIndexedValue in
  let bNewVal :=
    negb (bIndexedValueIsValid s)
    || negb (bytes_eqb (sub (pabyLastIndexedValue s) 0 nSizeIndexedValue)
               value) in
  let bLastOfFile := (i =? nFeatures - 1) && (nNextPageID =? 0) in
  let nFID := le32 (sub abyBuffer (12 + 4 * i) 4) in
  let '(nOGRFID, oMap) := map_index nFID (m_oMapFGDBFIDToOGRFID s) in
  let bMapped := negb (nOGRFID =? 0) in
  let abyBuffer1 :=
    if bMapped then memcpy abyBuffer (12 + 4 * i) (put32 nOGRFID)
    else abyBuffer in
  let bRewritePage1 := bRewritePage || bMapped in
  let bSort1 :=
    bSortThisValue s || (bMapped && bIndexedValueIsValid s && bLastOfFile) in
  (* re-sort of the run that ends here *)
  let '(f2, abyBuffer2, bRewritePage2) :=
    if bSort1 && (bNewVal || bLastOfFile) then
      if hd 0 (anPagesAtThisValue s) =? nThisPage then
        let nFeaturesToSortThisPage :=
          i - nFirstIndexAtThisValue s
          + (if negb bNewVal && bLastOfFile then 1 else 0) in
        let off := 12 + 4 * nFirstIndexAtThisValue s in
        let n := Z.to_nat nFeaturesToSortThisPage in
        let sorted := qsort (decode_ints n (sub abyBuffer1 off (4 * Z.of_nat n))) in
        (fp s, memcpy abyBuffer1 off (encode_ints sorted), true)
      else
        let nFeaturesToSortLastPage :=
          i + (if negb bNewVal && bLastOfFile then 1 else 0) in
        let size := Z.of_nat (length (anPagesAtThisValue s)) in
        let '(f1, anValues, bRw) :=
          collect_run (anPagesAtThisValue s) 0 size nThisPage
            (nFirstIndexAtThisValue s) nFeaturesToSortLastPage abyBuffer1
            (fp s) [] bRewritePage1 in
        let '(f2, buf) :=
          store_run (anPagesAtThisValue s) 0 size nThisPage
            (nFirstIndexAtThisValue s) nFeaturesToSortLastPage abyBuffer1
            f1 (qsort anValues) in
        (f2, buf, bRw)
    else (fp s, abyBuffer1, bRewritePage1) in
  if bNewVal then
    Next abyBuffer2 bRewritePage2
      (mkState f2 oMap (nLastPageVisited s)
         (memcpy (pabyLastIndexedValue s) 0 value) true i [nThisPage]
         bMapped (bInvalidateIndex s))
  else if (i =? 0)
          && (Z.of_nat (length (anPagesAtThisValue s)) >? 100000) then
    Return false
      (mkState f2 oMap (nLastPageVisited s) (pabyLastIndexedValue s)
         (bIndexedValueIsValid s) (nFirstIndexAtThisValue s)
         (anPagesAtThisValue s) bSort1 true)
  else
    Next abyBuffer2 bRewritePage2
      (mkState f2 oMap (nLastPageVisited s) (pabyLastIndexedValue s) true
         (nFirstIndexAtThisValue s)
         (if i =? 0 then anPagesAtThisValue s ++ [nThisPage]
          else anPagesAtThisValue s)
         (bSort1 || bMapped) (bInvalidateIndex s)).

(** The loop over the entries: [n] turns from index [i]. *)
Fixpoint leaf_loop (n : nat) (nThisPage nSizeIndexedValue nNextPageID
    nFeatures i : Z) (abyBuffer : list Z) (bRewritePage : bool) (s : State)
    : LeafStep :=
  match n with
  | O => Next abyBuffer bRewritePage s
  | S n' =>
      match leaf_entry nThisPage nSizeIndexedValue nNextPageID nFeatures i
              abyBuffer bRewritePage s with
      | Next buf rw s' =>
          leaf_loop n' nThisPage nSizeIndexedValue nNextPageID nFeatures
            (i + 1) buf rw s'
      | Return r s' => Return r s'
      end
  end.

(** The [nDepth == 1] branch: a page that references features. *)
Definition edit_leaf (nThisPage nSizeIndexedValue : Z) (s : State)
    : bool * State :=
  let f0 := VSIFSeekL_SET (fp s) (to_int32 ((nThisPage - 1) * 4096)) in
  if nThisPage =? nLastPageVisited s then (true, set_fp f0 s)
  else
    let '(abyBuffer, f1) := VSIFReadL 4096 f0 in
    if negb (Z.of_nat (length abyBuffer) =? 4096) then (false, set_fp f1 s)
    else
      let nNextPageID := le32 (sub abyBuffer 0 4) in
      let nFeatures := le32 (sub abyBuffer 4 4) in
      let nMaxPerPages := Z.quot (4096 - 12) (4 + nSizeIndexedValue) in
      if nFeatures >? nMaxPerPages then (false, set_fp f1 s)
      else
        match leaf_loop (Z.to_nat nFeatures) nThisPage nSizeIndexedValue
                nNextPageID nFeatures 0 abyBuffer false (set_fp f1 s) with
        | Return r s' => (r, s')
        | Next buf bRewritePage s1 =>
            if bRewritePage then
              let f2 := VSIFSeekL_SET (fp s1)
                          (to_int32 ((nThisPage - 1) * 4096)) in
              let '(ok, f3) := VSIFWriteL buf f2 in
              if ok then
                (true, mkState f3 (m_oMapFGDBFIDToOGRFID s1) nThisPage
                         (pabyLastIndexedValue s1) (bIndexedValueIsValid s1)
                         (nFirstIndexAtThisValue s1) (anPagesAtThisValue s1)
                         (bSortThisValue s1) (bInvalidateIndex s1))
              else (false, set_fp f3 s1)
            else
              (true, mkState (fp s1) (m_oMapFGDBFIDToOGRFID s1) nThisPage
                       (pabyLastIndexedValue s1) (bIndexedValueIsValid s1)
                       (nFirstIndexAtThisValue s1) (anPagesAtThisValue s1)
                       (bSortThisValue s1) (bInvalidateIndex s1))
        end.

(** The loop over the children of an interior page, [n] turns from index
    [i]; [visit] is the recursive call on a child page. *)
Fixpoint children (visit : Z -> State -> option (bool * State))
    (abyBuffer : list Z) (n : nat) (i : Z) (s : State)
    : option (bool * State) :=
  match n with
  | O => Some (true, s)
  | S n' =>
      let nSubPageID := le32 (sub abyBuffer (8 + 4 * i) 4) in
      if nSubPageID <? 1 then Some (false, s)
      else
        match visit nSubPageID s with
        | None => None
        | Some (false, s') => Some (false, s')
        | Some (true, s') => children visit abyBuffer n' (i + 1) s'
        end
  end.

(** The recursive overload. The recursion follows page numbers read from
    the file, so the model is given an amount of [fuel]; [None] means the
    fuel ran out. *)
Fixpoint EditATXOrSPX_page (fuel : nat) (nThisPage nDepth nSizeIndexedValue : Z)
    (s : State) : option (bool * State) :=
  match fuel with
  | O => None
  | S fuel' =>
      if nDepth =? 1 then Some (edit_leaf nThisPage nSizeIndexedValue s)
      else
        let f0 := VSIFSeekL_SET (fp s) (to_int32 ((nThisPage - 1) * 4096)) in
        let '(abyBuffer, f1) := VSIFReadL 4096 f0 in
        if negb (Z.of_nat (length abyBuffer) =? 4096) then
          Some (false, set_fp f1 s)
        else
          let nSubPages := to_int32 (le32 (sub abyBuffer 4 4) + 1) in
          if nSubPages >? Z.quot (4096 - 8) 4 then Some (false, set_fp f1 s)
          else
            children
              (fun nSubPageID s' =>
                 EditATXOrSPX_page fuel' nSubPageID (to_int32 (nDepth - 1))
                   nSizeIndexedValue s')
              abyBuffer (Z.to_nat nSubPages) 0 (set_fp f1 s)
  end.

(** The part of [EditATXOrSPX (const CPLString &osIndex)] between the
    opening and the closing of the file, on the bytes of the file: the
    trailer, then the walk from page 1. *)
Definition scan (fuel : nat) (data : list Z) (oMapFGDBFIDToOGRFID : stdmap)
    : option (bool * State) :=
  let f0 := VSIFSeekL_END (mkFile data 0) in
  let nPos := VSIFTellL f0 in
  let s0 (f : VSILFILE) :=
    mkState f oMapFGDBFIDToOGRFID 0 (zeros 255) false (-1) [] false false in
  if nPos >? 22 then
    let f1 := VSIFSeekL_SET f0 (nPos - 22) in
    let '(b, f2) := VSIFReadL 1 f1 in
    let nSizeIndexedValue := nth 0 b 0 in
    if (Z.of_nat (length b) =? 1) && (nSizeIndexedValue >? 0) then
      let f3 := VSIFSeekL_SET f2 (nPos - 22 + 6) in
      let '(d, f4) := VSIFReadL 4 f3 in
      if Z.of_nat (length d) =? 4 then
        EditATXOrSPX_page fuel 1 (le32 d) nSizeIndexedValue (s0 f4)
      else Some (false, s0 f4)
    else Some (false, s0 f2)
  else Some (false, s0 f0).

End Index.

(** ** The file system seen through [VSIFOpenL], [VSIUnlink], [VSIRename] *)

(** [VSIUnlink]: [0] on success, [-1] when there is no such file. *)
Definition VSIUnlink (path : string) (fs : gmap string (list Z))
    : Z * gmap string (list Z) :=
  match fs !! path with
  | Some _ => (0, delete path fs)
  | None => (-1, fs)
  end.

(** [VSIRename]: [0] on success (an existing target is replaced), [-1]
    when the source does not exist or the file system handler refuses the
    move; [permits oldpath newpath] tells whether the handler lets it
    through. *)
Definition VSIRename (permits : string -> string -> bool)
    (oldpath newpath : string) (fs : gmap string (list Z))
    : Z * gmap string (list Z) :=
  match fs !! oldpath with
  | Some d =>
      if permits oldpath newpath then
        (0, <[newpath := d]> (delete oldpath fs))
      else (-1, fs)
  | None => (-1, fs)
  end.

Module IndexFile.
Import Index.

(** [FGdbLayer::EditATXOrSPX (const CPLString &osIndex)]: the result, the
    file system and the layer's map afterwards. The file is opened for
    update, so what the walk wrote is in the file when it is closed. *)
Definition EditATXOrSPX (fuel : nat) (osIndex : string)
    (fs : gmap string (list Z)) (oMapFGDBFIDToOGRFID : stdmap)
    : option (bool * gmap string (list Z) * stdmap) :=
  match fs !! osIndex with
  | None => Some (false, fs, oMapFGDBFIDToOGRFID)
  | Some data =>
      match scan fuel data oMapFGDBFIDToOGRFID with
      | None => None
      | Some (bRet, s) =>
          let fs1 := <[osIndex := f_data (fp s)]> fs in
          let fs2 := if bInvalidateIndex s then snd (VSIUnlink osIndex fs1)
                     else fs1 in
          Some (bRet, fs2, m_oMapFGDBFIDToOGRFID s)
      end
  end.

End IndexFile.

(** ** Index files for the scenarios *)

Module Fixture.

Definition pad (n : Z) (l : list Z) : list Z :=
  l ++ zeros (n - Z.of_nat (length l)).

(** A leaf page: next-page pointer, entry count, identifiers in a region
    sized for the most entries a page can hold, then the indexed values. *)
Definition leaf_page (nSize nNext : Z) (entries : list (Z * list Z))
    : list Z :=
  let nMax := Z.quot (4096 - 12) (4 + nSize) in
  pad 4096
    (put32 nNext ++ put32 (Z.of_nat (length entries)) ++ zeros 4
     ++ pad (4 * nMax) (encode_ints (map fst entries))
     ++ concat (map snd entries)).

(** An interior page: [subPageCount - 1] and the child page numbers. *)
Definition interior_page (children : list Z) : list Z :=
  pad 4096
    (zeros 4 ++ put32 (Z.of_nat (length children) - 1)
     ++ encode_ints children).

(** The 22-byte trailer: the width of the indexed value, the depth at +6. *)
Definition trailer (nSize nDepth : Z) : list Z :=
  pad 22 ([nSize] ++ zeros 5 ++ put32 nDepth).

(** The entries [(identifier, value)] of the leaf page number [nPage] of
    an index file, as the editor parses a page. *)
Definition leaf_entries (nSize : Z) (data : list Z) (nPage : Z)
    : list (Z * list Z) :=
  let page := sub data ((nPage - 1) * 4096) 4096 in
  let nFeatures := le32 (sub page 4 4) in
  let nMax := Z.quot (4096 - 12) (4 + nSize) in
  map (fun i : nat =>
         (le32 (sub page (12 + 4 * Z.of_nat i) 4),
          sub page (12 + nMax * 4 + Z.of_nat i * nSize) nSize))
      (seq 0 (Z.to_nat nFeatures)).

Definition A : list Z := [65].
Definition B : list Z := [66].

(** One leaf page [(10,A) (20,A) (30,B)], depth 1. *)
Definition index1 : list Z :=
  leaf_page 1 0 [(10, A); (20, A); (30, B)] ++ trailer 1 1.

(** A run of the value A over two leaf pages, the second and last of which
    holds a single entry: page 1 is the root, pages 2 and 3 the leaves. *)
Definition index2 : list Z :=
  interior_page [2; 3]
  ++ leaf_page 1 3 [(10, A); (20, A)]
  ++ leaf_page 1 0 [(30, A)]
  ++ trailer 1 2.

(** The same two leaves with the file cut after the first: the root
    still lists page 3. *)
Definition index_truncated : list Z :=
  interior_page [2; 3]
  ++ leaf_page 1 3 [(10, A); (20, A)]
  ++ trailer 1 2.

(** A file that ends before its first page is complete: one byte and the
    trailer. *)
Definition index_short : list Z := [0] ++ trailer 1 1.





(** Strictly ascending identifiers. *)
Fixpoint ascending (l : list Z) : bool :=
  match l with
  | [] => true
  | x :: l' =>
      match l' with
      | [] => true
      | y :: _ => (x <? y) && ascending l'
      end
  end.

End Fixture.

(** ** The row-offset table rewriter: [FGdbLayer::EditGDBTablX] *)

Module TablX.

Definition TEST_BIT (ar : list Z) (bit : Z) : Z :=
  Z.land (nth (Z.to_nat (Z.quot bit 8)) ar 0) (Z.shiftl 1 (Z.rem bit 8)).

Definition SET_BIT (ar : list Z) (bit : Z) : list Z :=
  let k := Z.to_nat (Z.quot bit 8) in
  <[k := Z.lor (nth k ar 0) (Z.shiftl 1 (Z.rem bit 8))]> ar.

Definition BIT_ARRAY_SIZE_IN_BYTES (bitsize : Z) : Z := Z.quot (bitsize + 7) 8.

(** One of the two [while] loops of [UpdateNextOGRFIDAndFGDBFID]: the
    iterator [oIter] and the key [nNext] it points to ([-1] at the end). *)
Fixpoint advance (i : Z) (oIter : stdmap) (nNext : Z) {struct oIter}
    : stdmap * Z :=
  if (nNext >? 0) && (i >? nNext) then
    match oIter with
    | [] => (oIter, nNext)
    | _ :: rest =>
        match rest with
        | [] => (rest, -1)
        | (k, _) :: _ => advance i rest k
        end
    end
  else (oIter, nNext).

(** Number of set bits among the [n] bits of [ar] from bit [j]. *)
Fixpoint count_bits (ar : list Z) (j : Z) (n : nat) : Z :=
  match n with
  | O => 0
  | S n' => (if TEST_BIT ar j =? 0 then 0 else 1) + count_bits ar (j + 1) n'
  end.

(** The variables of the main loop. *)
Record Loop := mkLoop {
  iUnsigned : Z;
  nOffsetInPage : Z;
  nLastWrittenOffset : Z;
  pabyPage : list Z;
  pabyBlockMapOut : list Z;
  nNonEmptyPages : Z;
  oIterO2F : stdmap;
  nNextOGRFID : Z;
  oIterF2O : stdmap;
  nNextFGDBFID : Z;
  nCountBlocksBeforeIBlockIdx : Z;
  nCountBlocksBeforeIBlockValue : Z;
  abyBuffer : list Z;
  fpNew : VSILFILE
}.

(** How one turn of the loop ends: at the increment of the [for], at the
    [break], or at [goto end] with [bRet = FALSE]. *)
Inductive Turn :=
| Continue (l : Loop)
| Break (l : Loop)
| Fail (l : Loop).

Section Rewrite.

(** [FILEGDB_DISABLE_SPARSE_PAGES], the input file, and what the header of
    the input says. *)
Variable bDisableSparsePages : bool.
Variable fp : VSILFILE.
Variable nRecordSize : Z.
Variable nInMaxFID : Z.
Variable nOutMaxFID : Z.
Variable pabyBlockMap : option (list Z).

(** [UpdateNextOGRFIDAndFGDBFID (i, ...)]. *)
Definition UpdateNextOGRFIDAndFGDBFID (i : Z) (l : Loop) : Loop :=
  let '(itO, nO) := advance i (oIterO2F l) (nNextOGRFID l) in
  let '(itF, nF) := advance i (oIterF2O l) (nNextFGDBFID l) in
  mkLoop (iUnsigned l) (nOffsetInPage l) (nLastWrittenOffset l) (pabyPage l)
    (pabyBlockMapOut l) (nNonEmptyPages l) itO nO itF nF
    (nCountBlocksBeforeIBlockIdx l) (nCountBlocksBeforeIBlockValue l)
    (abyBuffer l) (fpNew l).

(** Read one offset record of the input at row [iRow] (counted among the
    rows present in the file) into [abyBuffer], and copy it to the page
    unless it is the empty offset. *)
Definition copy_record (iRow : Z) (l : Loop) : Loop :=
  let f := VSIFSeekL_SET fp (to_int32 (16 + to_int32 (nRecordSize * iRow))) in
  let buf := read_into (abyBuffer l) (fst (VSIFReadL nRecordSize f)) in
  if negb (bytes_eqb (sub buf 0 nRecordSize) (zeros nRecordSize)) then
    let page1 :=
      if nLastWrittenOffset l <? nOffsetInPage l then
        memset0 (pabyPage l) (nLastWrittenOffset l)
          (nOffsetInPage l - nLastWrittenOffset l)
      else pabyPage l in
    mkLoop (iUnsigned l) (nOffsetInPage l) (nOffsetInPage l + nRecordSize)
      (memcpy page1 (nOffsetInPage l) (sub buf 0 nRecordSize))
      (pabyBlockMapOut l) (nNonEmptyPages l) (oIterO2F l) (nNextOGRFID l)
      (oIterF2O l) (nNextFGDBFID l) (nCountBlocksBeforeIBlockIdx l)
      (nCountBlocksBeforeIBlockValue l) buf (fpNew l)
  else
    mkLoop (iUnsigned l) (nOffsetInPage l) (nLastWrittenOffset l)
      (pabyPage l) (pabyBlockMapOut l) (nNonEmptyPages l) (oIterO2F l)
      (nNextOGRFID l) (oIterF2O l) (nNextFGDBFID l)
      (nCountBlocksBeforeIBlockIdx l) (nCountBlocksBeforeIBlockValue l)
      buf (fpNew l).

(** The part of the body that fetches the record of [nSrcFID]. *)
Definition fetch_source (nSrcFID : Z) (l : Loop) : Loop :=
  match pabyBlockMap with
  | Some blockMap =>
      let iBlock := Z.quot (nSrcFID - 1) 1024 in
      if negb (TEST_BIT blockMap iBlock =? 0) then
        let nCountBlocksBefore :=
          if iBlock >=? nCountBlocksBeforeIBlockIdx l then
            nCountBlocksBeforeIBlockValue l
            + count_bits blockMap (nCountBlocksBeforeIBlockIdx l)
                (Z.to_nat (iBlock - nCountBlocksBeforeIBlockIdx l))
          else count_bits blockMap 0 (Z.to_nat iBlock) in
        let iCorrectedRow :=
          to_int32 (to_int32 (nCountBlocksBefore * 1024)
                    + Z.rem (nSrcFID - 1) 1024) in
        copy_record iCorrectedRow
          (mkLoop (iUnsigned l) (nOffsetInPage l) (nLastWrittenOffset l)
             (pabyPage l) (pabyBlockMapOut l) (nNonEmptyPages l)
             (oIterO2F l) (nNextOGRFID l) (oIterF2O l) (nNextFGDBFID l)
             iBlock nCountBlocksBefore (abyBuffer l) (fpNew l))
      else l
  | None => copy_record (to_int32 (nSrcFID - 1)) l
  end.

(** The body after the page-boundary work, for the row [i]. *)
Definition row_body (i : Z) (l0 : Loop) : Turn :=
  let l := UpdateNextOGRFIDAndFGDBFID i l0 in
  let at_i (l : Loop) :=
    mkLoop (to_uint32 i) (nOffsetInPage l) (nLastWrittenOffset l)
      (pabyPage l) (pabyBlockMapOut l) (nNonEmptyPages l) (oIterO2F l)
      (nNextOGRFID l) (oIterF2O l) (nNextFGDBFID l)
      (nCountBlocksBeforeIBlockIdx l) (nCountBlocksBeforeIBlockValue l)
      (abyBuffer l) (fpNew l) in
  if i =? nNextOGRFID l then
    Continue (at_i (fetch_source (snd (hd (0, 0) (oIterO2F l))) l))
  else if (i =? nNextFGDBFID l) || (i >? nInMaxFID) then Continue (at_i l)
  else Continue (at_i (fetch_source i l)).

(** The body of the [for]: [iUnsigned l] is the row to treat. On [Continue]
    the [iUnsigned] of the result holds [(unsigned) i], the increment of the
    [for] not yet applied. *)
Definition body (l : Loop) : Turn :=
  let i := to_int32 (iUnsigned l) in
  if nOffsetInPage l =? 1024 * nRecordSize then
    let flush := (nLastWrittenOffset l >? 0) || bDisableSparsePages in
    let page :=
      if flush && (nLastWrittenOffset l <? nOffsetInPage l) then
        memset0 (pabyPage l) (nLastWrittenOffset l)
          (nOffsetInPage l - nLastWrittenOffset l)
      else pabyPage l in
    let '(ok, fNew) :=
      if flush then VSIFWriteL (sub page 0 (1024 * nRecordSize)) (fpNew l)
      else (true, fpNew l) in
    let l1 :=
      mkLoop (iUnsigned l)
        (if ok then 0 else nOffsetInPage l)
        (if ok then 0 else nLastWrittenOffset l)
        page
        (if flush then SET_BIT (pabyBlockMapOut l) (Z.quot (i - 2) 1024)
         else pabyBlockMapOut l)
        (if flush then nNonEmptyPages l + 1 else nNonEmptyPages l)
        (oIterO2F l) (nNextOGRFID l) (oIterF2O l) (nNextFGDBFID l)
        (nCountBlocksBeforeIBlockIdx l) (nCountBlocksBeforeIBlockValue l)
        (abyBuffer l) fNew in
    if negb ok then Fail l1
    else if negb bDisableSparsePages && (i >? nInMaxFID)
            && (nNextOGRFID l1 >? 0) && (i <? nNextOGRFID l1 - 1024) then
      row_body (Z.quot (nNextOGRFID l1 - 1) 1024 * 1024 + 1) l1
    else if negb bDisableSparsePages
            && match pabyBlockMap with
               | Some blockMap =>
                   (i <=? nInMaxFID)
                   && (TEST_BIT blockMap (Z.quot (i - 1) 1024) =? 0)
               | None => false
               end then
      let l2 := UpdateNextOGRFIDAndFGDBFID i l1 in
      if ((nNextOGRFID l2 <? 0) || (i <? nNextOGRFID l2 - 1024))
         && ((nNextFGDBFID l2 <? 0) || (i <? nNextFGDBFID l2 - 1024)) then
        if i >? INT_MAX - 1024 then Break l2
        else
          Continue
            (mkLoop (to_uint32 (i + 1023))
               (nOffsetInPage l2 + 1023 * nRecordSize)
               (nLastWrittenOffset l2) (pabyPage l2) (pabyBlockMapOut l2)
               (nNonEmptyPages l2) (oIterO2F l2) (nNextOGRFID l2)
               (oIterF2O l2) (nNextFGDBFID l2)
               (nCountBlocksBeforeIBlockIdx l2)
               (nCountBlocksBeforeIBlockValue l2) (abyBuffer l2) (fpNew l2))
      else row_body i l2
    else row_body i l1
  else row_body i l.

(** The [for] loop; [None] when the fuel does not reach its end. *)
Fixpoint loop (fuel : nat) (l : Loop) : option (bool * Loop) :=
  if iUnsigned l <=? to_uint32 nOutMaxFID then
    match fuel with
    | O => None
    | S fuel' =>
        match body l with
        | Continue l' =>
            loop fuel'
              (mkLoop (to_uint32 (iUnsigned l' + 1))
                 (nOffsetInPage l' + nRecordSize) (nLastWrittenOffset l')
                 (pabyPage l') (pabyBlockMapOut l') (nNonEmptyPages l')
                 (oIterO2F l') (nNextOGRFID l') (oIterF2O l')
                 (nNextFGDBFID l') (nCountBlocksBeforeIBlockIdx l')
                 (nCountBlocksBeforeIBlockValue l') (abyBuffer l') (fpNew l'))
        | Break l' => Some (true, l')
        | Fail l' => Some (false, l')
        end
    end
  else Some (true, l).

End Rewrite.

(** The key the loop at the top leaves in [nMaxOGRFID]: the last one. *)
Definition last_key (m : stdmap) : Z := fold_left (fun _ kv => fst kv) m 0.

(** The trailing-compaction loop, [n] turns at most:
    [for (int i = nInMaxFID; i > nMaxOGRFID; i--)]. *)
Fixpoint compact (n : nat) (oMapFGDBFIDToOGRFID : stdmap)
    (nMaxOGRFID i nInMaxFID nOutMaxFID : Z) : Z * Z :=
  match n with
  | O => (nInMaxFID, nOutMaxFID)
  | S n' =>
      if i >? nMaxOGRFID then
        if map_mem i oMapFGDBFIDToOGRFID then
          compact n' oMapFGDBFIDToOGRFID nMaxOGRFID (i - 1)
            (nInMaxFID - 1) (nOutMaxFID - 1)
        else (nInMaxFID, nOutMaxFID)
      else (nInMaxFID, nOutMaxFID)
  end.

(** What the function computes from the input before the main loop. *)
Record Prelude := mkPrelude {
  p_fp : VSILFILE;
  p_n1024Blocks : Z;
  p_nInMaxFIDOri : Z;
  p_nRecordSize : Z;
  p_nInMaxFID : Z;
  p_nOutMaxFID : Z;
  p_n1024BlocksOut : Z;
  p_pabyBlockMap : option (list Z);
  p_nSizeInBytesOut : Z;
  p_abyBuffer : list Z;
  p_fpNew : VSILFILE
}.

Definition prelude (data : list Z)
    (oMapOGRFIDToFGDBFID oMapFGDBFIDToOGRFID : stdmap) : Prelude :=
  let '(hdr, fp1) := VSIFReadL 16 (mkFile data 0) in
  let abyBuffer := read_into (zeros 16) hdr in
  let n1024Blocks := GetInt32 abyBuffer 1 in
  let nInMaxFIDOri := GetInt32 abyBuffer 2 in
  let nRecordSize := GetInt32 abyBuffer 3 in
  let nMaxOGRFID := last_key oMapOGRFIDToFGDBFID in
  let '(nInMaxFID, nOutMaxFID) :=
    compact (Z.to_nat (nInMaxFIDOri - nMaxOGRFID)) oMapFGDBFIDToOGRFID
      nMaxOGRFID nInMaxFIDOri nInMaxFIDOri (Z.max nInMaxFIDOri nMaxOGRFID) in
  let n1024BlocksOut := to_int32 (Z.quot (nOutMaxFID + 1023) 1024) in
  let abyBuffer1 :=
    memcpy (memcpy abyBuffer 4 (put32 n1024BlocksOut)) 8 (put32 nOutMaxFID) in
  let fpNew := snd (VSIFWriteL (sub abyBuffer1 0 16) (mkFile [] 0)) in
  let fp2 :=
    VSIFSeekL_CUR fp1 (to_int32 (to_int32 (1024 * n1024Blocks) * nRecordSize)) in
  let '(tr, fp3) := VSIFReadL 16 fp2 in
  let abyBuffer2 := read_into abyBuffer1 tr in
  let nBitmapInt32Words := GetInt32 abyBuffer2 0 in
  let n1024BlocksTotal := GetInt32 abyBuffer2 1 in
  let pabyBlockMap :=
    if nBitmapInt32Words =? 0 then None
    else
      let nSizeInBytes := BIT_ARRAY_SIZE_IN_BYTES n1024BlocksTotal in
      Some (read_into (zeros nSizeInBytes) (fst (VSIFReadL nSizeInBytes fp3))) in
  let nSizeInBytesOut :=
    Z.quot (BIT_ARRAY_SIZE_IN_BYTES n1024BlocksOut + 127) 128 * 128 in
  mkPrelude fp3 n1024Blocks nInMaxFIDOri nRecordSize nInMaxFID nOutMaxFID
    n1024BlocksOut pabyBlockMap nSizeInBytesOut abyBuffer2 fpNew.

(** The loop variables at the entry of the main loop; the two iterators
    are dereferenced at [begin ()], which has no meaning on an empty map. *)
Definition loop_entry (malloc : Z -> list Z) (p : Prelude)
    (oMapOGRFIDToFGDBFID oMapFGDBFIDToOGRFID : stdmap) : option Loop :=
  match oMapOGRFIDToFGDBFID, oMapFGDBFIDToOGRFID with
  | (nNextOGRFID, _) :: _, (nNextFGDBFID, _) :: _ =>
      Some
        (mkLoop 1 0 0 (malloc (1024 * p_nRecordSize p))
           (zeros (p_nSizeInBytesOut p)) 0 oMapOGRFIDToFGDBFID nNextOGRFID
           oMapFGDBFIDToOGRFID nNextFGDBFID 0 0 (p_abyBuffer p) (p_fpNew p))
  | _, _ => None
  end.

(** The code after the main loop, up to the label [end]. *)
Definition epilogue (bDisableSparsePages : bool) (p : Prelude) (l : Loop)
    : option (bool * list Z) :=
  let nRecordSize := p_nRecordSize p in
  let nOutMaxFID := p_nOutMaxFID p in
  let flush := (nLastWrittenOffset l >? 0) || bDisableSparsePages in
  if flush && negb (nOutMaxFID >=? 1) then None
  else
    let blockMapOut :=
      if flush then SET_BIT (pabyBlockMapOut l) (Z.quot (nOutMaxFID - 1) 1024)
      else pabyBlockMapOut l in
    let nNonEmpty :=
      if flush then nNonEmptyPages l + 1 else nNonEmptyPages l in
    let page :=
      if flush && (nLastWrittenOffset l <? 1024 * nRecordSize) then
        memset0 (pabyPage l) (nLastWrittenOffset l)
          (1024 * nRecordSize - nLastWrittenOffset l)
      else pabyPage l in
    let '(ok, f1) :=
      if flush then VSIFWriteL (sub page 0 (1024 * nRecordSize)) (fpNew l)
      else (true, fpNew l) in
    if negb ok then Some (false, f_data f1)
    else
      let sparse := nNonEmpty <? p_n1024BlocksOut p in
      let b0 := zeros 16 in
      let b1 := memcpy b0 4 (put32 (p_n1024BlocksOut p)) in
      let b2 := memcpy b1 8 (put32 nNonEmpty) in
      let b3 :=
        if sparse then
          memcpy (memcpy b2 0 (put32 (Z.quot (p_nSizeInBytesOut p) 4))) 12
            (put32 (Z.quot (Z.quot (nOutMaxFID - 1) 1024 + 31) 32))
        else b2 in
      let '(ok2, f2) := VSIFWriteL b3 f1 in
      if negb ok2 then Some (false, f_data f2)
      else if sparse then
        let f3 := snd (VSIFWriteL (sub blockMapOut 0 (p_nSizeInBytesOut p)) f2) in
        let f4 := VSIFSeekL_SET f3 4 in
        let f5 := snd (VSIFWriteL (put32 nNonEmpty) f4) in
        Some (true, f_data f5)
      else Some (true, f_data f2).

(** [EditGDBTablX] on the bytes of the input table: the result and the
    bytes of the new file. [None] stands for an execution without a defined
    result: the dereference of [begin ()] of an empty map, or the failed
    [assert]. [malloc n] is what a fresh block of [n] bytes holds. *)
Definition EditGDBTablX_bytes (bDisableSparsePages : bool) (malloc : Z -> list Z)
    (data : list Z) (oMapOGRFIDToFGDBFID oMapFGDBFIDToOGRFID : stdmap)
    : option (bool * list Z) :=
  let p := prelude data oMapOGRFIDToFGDBFID oMapFGDBFIDToOGRFID in
  match loop_entry malloc p oMapOGRFIDToFGDBFID oMapFGDBFIDToOGRFID with
  | None => None
  | Some l0 =>
      match loop bDisableSparsePages (p_fp p) (p_nRecordSize p)
              (p_nInMaxFID p) (p_nOutMaxFID p) (p_pabyBlockMap p)
              (Z.to_nat (to_uint32 (p_nOutMaxFID p))) l0 with
      | None => None
      | Some (false, l) => Some (false, f_data (fpNew l))
      | Some (true, l) => epilogue bDisableSparsePages p l
      end
  end.

(** [FGdbLayer::EditGDBTablX (osGDBTablX, osNewGDBTablX)] on the file
    system: the input is opened for reading, the new file is created, and
    holds what was written when the function returns. *)
Definition EditGDBTablX (bDisableSparsePages : bool) (malloc : Z -> list Z)
    (osGDBTablX osNewGDBTablX : string) (fs : gmap string (list Z))
    (oMapOGRFIDToFGDBFID oMapFGDBFIDToOGRFID : stdmap)
    : option (bool * gmap string (list Z)) :=
  match fs !! osGDBTablX with
  | None => Some (false, fs)
  | Some data =>
      match EditGDBTablX_bytes bDisableSparsePages malloc data oMapOGRFIDToFGDBFID
              oMapFGDBFIDToOGRFID with
      | None => None
      | Some (r, new) => Some (r, <[osNewGDBTablX := new]> fs)
      end
  end.

(** *** Reading a row-offset table *)

(** The offset record of row [nFID] in a table, located as the rewriter
    locates the record of a source row: through the header, the second
    header and the bitmap of the blocks present; a row beyond [maxFID], or
    in a block that is not present, has the empty offset. *)
Definition read_row (data : list Z) (nFID : Z) : list Z :=
  let n1024Blocks := GetInt32 (sub data 0 16) 1 in
  let nMaxFID := GetInt32 (sub data 0 16) 2 in
  let nRecordSize := GetInt32 (sub data 0 16) 3 in
  let tr := sub data (16 + 1024 * n1024Blocks * nRecordSize) 16 in
  let nBitmapInt32Words := GetInt32 tr 0 in
  let n1024BlocksTotal := GetInt32 tr 1 in
  let blockMap :=
    sub data (32 + 1024 * n1024Blocks * nRecordSize)
      (BIT_ARRAY_SIZE_IN_BYTES n1024BlocksTotal) in
  if (nFID <? 1) || (nFID >? nMaxFID) then zeros nRecordSize
  else if nBitmapInt32Words =? 0 then
    sub data (16 + nRecordSize * (nFID - 1)) nRecordSize
  else
    let iBlock := Z.quot (nFID - 1) 1024 in
    if TEST_BIT blockMap iBlock =? 0 then zeros nRecordSize
    else
      let iCorrectedRow :=
        count_bits blockMap 0 (Z.to_nat iBlock) * 1024
        + Z.rem (nFID - 1) 1024 in
      sub data (16 + nRecordSize * iCorrectedRow) nRecordSize.

(** The [maxIdentifier] field of the header. *)
Definition header_maxFID (data : list Z) : Z := GetInt32 (sub data 0 16) 2.

(** Whether block [iBlock] of a table is marked present: by its bit, or
    because the table has no bitmap and stores every block. *)
Definition block_present (data : list Z) (iBlock : Z) : bool :=
  let n1024Blocks := GetInt32 (sub data 0 16) 1 in
  let nRecordSize := GetInt32 (sub data 0 16) 3 in
  let tr := sub data (16 + 1024 * n1024Blocks * nRecordSize) 16 in
  let blockMap :=
    sub data (32 + 1024 * n1024Blocks * nRecordSize)
      (BIT_ARRAY_SIZE_IN_BYTES (GetInt32 tr 1)) in
  if GetInt32 tr 0 =? 0 then true
  else negb (TEST_BIT blockMap iBlock =? 0).

End TablX.

Module TablXFixture.
Import TablX.

(** A block of 1024 records, empty but for the records given with their
    index in the block. *)
Definition block (rs : Z) (recs : list (Z * list Z)) : list Z :=
  foldr (fun kr page => memcpy page (rs * fst kr) (snd kr))
    (zeros (1024 * rs)) recs.

(** A row-offset table with the given blocks (index and content, in
    ascending order) stored; [sparse] tells whether it carries a bitmap. *)
Definition table (nMaxFID rs : Z) (sparse : bool)
    (blocks : list (Z * list Z)) : list Z :=
  let total := (nMaxFID + 1023) / 1024 in
  let nSize := ((total + 7) / 8 + 127) / 128 * 128 in
  let n := Z.of_nat (length blocks) in
  zeros 4 ++ put32 n ++ put32 nMaxFID ++ put32 rs
  ++ concat (map snd blocks)
  ++ (if sparse then put32 (nSize / 4) else zeros 4)
  ++ put32 total ++ put32 n ++ zeros 4
  ++ (if sparse then
        foldr (fun b ar => SET_BIT ar (fst b)) (zeros nSize) blocks
      else []).

(** The table of the compaction scenario: [maxIdentifier] 1000001,
    records of 4 bytes, and one row present, 1000001, in block 976. *)
Definition table_5_1000001 : list Z :=
  table 1000001 4 true [(976, block 4 [(576, [7; 1; 0; 0])])].

(** A table of 2000 rows in two blocks, both stored, without bitmap. *)
Definition table_2000 : list Z :=
  table 2000 4 false
    [(0, block 4 [(4, [7; 1; 0; 0]); (6, [1; 1; 1; 1])]);
     (1, block 4 [(3, [1; 2; 3; 4])])].

End TablXFixture.

(** ** [FGdbLayer::EditIndexesForFIDHack] *)

Module Hack.

(** The end of [EditIndexesForFIDHack]: the new table takes the place of
    the old one. The result is [bRet2]. *)
Definition replace_gdbtablx (permits : string -> string -> bool)
    (osGDBTablX osNewGDBTablX : string) (fs : gmap string (list Z))
    : bool * gmap string (list Z) :=
  let osGDBTablXTmp := (osGDBTablX +:+ ".tmp")%string in
  let '(r1, fs1) := VSIRename permits osGDBTablX osGDBTablXTmp fs in
  let '(bRet2, fs2) :=
    if r1 =? 0 then
      let '(r2, fs2) := VSIRename permits osNewGDBTablX osGDBTablX fs1 in
      (r2 =? 0, fs2)
    else (false, fs1) in
  let fs3 := snd (VSIUnlink osGDBTablXTmp fs2) in
  (bRet2, fs3).

(** The loop over the index files of the table. [papszIndexes] are the
    entries of the directory that carry the table's base name and the
    extension [atx] or [spx]. *)
Fixpoint edit_indexes (fuel : nat) (papszIndexes : list string)
    (fs : gmap string (list Z)) (oMapFGDBFIDToOGRFID : stdmap) (bRet : bool)
    : option (bool * gmap string (list Z) * stdmap) :=
  match papszIndexes with
  | [] => Some (bRet, fs, oMapFGDBFIDToOGRFID)
  | osIndex :: rest =>
      match IndexFile.EditATXOrSPX fuel osIndex fs oMapFGDBFIDToOGRFID with
      | None => None
      | Some (r, fs', oMap') => edit_indexes fuel rest fs' oMap' (bRet && r)
      end
  end.

(** [EditIndexesForFIDHack (pszRadixTablename)]: the result, the file
    system and the layer's [m_oMapFGDBFIDToOGRFID] afterwards. *)
Definition EditIndexesForFIDHack (bDisableSparsePages : bool)
    (malloc : Z -> list Z) (permits : string -> string -> bool) (fuel : nat)
    (pszRadixTablename : string) (papszIndexes : list string)
    (fs : gmap string (list Z))
    (oMapOGRFIDToFGDBFID oMapFGDBFIDToOGRFID : stdmap)
    : option (bool * gmap string (list Z) * stdmap) :=
  let osGDBTablX := (pszRadixTablename +:+ ".gdbtablx")%string in
  let osNewGDBTablX := (pszRadixTablename +:+ ".gdbtablx.new")%string in
  match TablX.EditGDBTablX bDisableSparsePages malloc osGDBTablX osNewGDBTablX
          fs oMapOGRFIDToFGDBFID oMapFGDBFIDToOGRFID with
  | None => None
  | Some (false, fs1) =>
      Some (false, snd (VSIUnlink osNewGDBTablX fs1), oMapFGDBFIDToOGRFID)
  | Some (true, fs1) =>
      match edit_indexes fuel papszIndexes fs1 oMapFGDBFIDToOGRFID true with
      | None => None
      | Some (bRet, fs2, oMap') =>
          let '(bRet2, fs3) :=
            replace_gdbtablx permits osGDBTablX osNewGDBTablX fs2 in
          Some (bRet && bRet2, fs3, oMap')
      end
  end.

End Hack.

(** ** The feature interface: [DeleteFeature] and [ISetFeature] *)

Module Layer.













End Layer.

Module SwapFixture.

(** A handler that does not let the table be replaced. *)
Definition target_busy (oldpath newpath : string) : bool :=
  negb (String.eqb newpath "t.gdbtablx").

Definition two_tables : gmap string (list Z) :=
  {["t.gdbtablx" := [1]; "t.gdbtablx.new" := [2]]}.

End SwapFixture.

(** * Properties *)

(** ** The index editor *)

Import Index IndexFile Fixture.

(** The scenario of the specification: one leaf page
    [(10,A) (20,A) (30,B)] and the remap [20 -> 5]; the run of A is
    re-sorted. *)
Lemma scenario_leaf_run_resorted :
  (fun '(r, fs, _) => (r, (fun d => leaf_entries 1 d 1) <$> fs !! "a.atx"))
    <$> EditATXOrSPX 1 "a.atx" {["a.atx" := index1]} [(20, 5)]
  = Some (true, Some [(5, A); (10, A); (30, B)]).
Proof. vm_compute. reflexivity. Qed.

(** C3. Index sort invariant. The editor does not restore it when the run
    of a value ends on the last leaf page of the file and that page holds a
    single entry: the re-sort is started at that entry, before the page has
    been added to [anPagesAtThisValue], and leaves the entry out. Here the
    run of A over pages 2 and 3 reads 10, 20, 5 after a repair that
    reports success. *)
Theorem C3_last_single_entry_left_out_of_sort :
  (fun '(r, fs, _) =>
     (r, (fun d => map fst (leaf_entries 1 d 2 ++ leaf_entries 1 d 3))
           <$> fs !! "a.atx"))
    <$> EditATXOrSPX 2 "a.atx" {["a.atx" := index2]} [(30, 5)]
  = Some (true, Some [10; 20; 5])
  /\ ascending [10; 20; 5] = false.
Proof. split; vm_compute; reflexivity. Qed.

(** C5. The index editor looks identifiers up with [operator[]], which
    inserts the identifiers it does not find: after the repair of the
    scenario's page, [m_oMapFGDBFIDToOGRFID] holds two more entries. *)
Theorem C5_index_editor_inserts_into_map :
  (fun '(_, _, oMap) => oMap)
    <$> EditATXOrSPX 1 "a.atx" {["a.atx" := index1]} [(20, 5)]
  = Some [(10, 0); (20, 5); (30, 0)].
Proof. vm_compute. reflexivity. Qed.

Arguments VSIFReadL : simpl never.
Arguments VSIFWriteL : simpl never.
Arguments VSIFSeekL_SET : simpl never.
Arguments VSIFSeekL_CUR : simpl never.
Arguments VSIFSeekL_END : simpl never.
Arguments edit_leaf : simpl never.
Arguments leaf_entry : simpl never.
Arguments sub : simpl never.
Arguments memcpy : simpl never.
Arguments le32 : simpl never.
Arguments put32 : simpl never.
Arguments to_int32 : simpl never.
Arguments to_uint32 : simpl never.
Arguments to_uint64 : simpl never.
Arguments zeros : simpl never.
Arguments Z.quot : simpl never.
Arguments Z.rem : simpl never.
Arguments Z.mul : simpl never.
Arguments Z.add : simpl never.
Arguments Z.sub : simpl never.

(** *** When the invalidation flag is raised *)

(** One entry of a leaf page either goes on with the flag as it was, or
    stops the walk: at the first entry of the page, when that entry goes on
    with the run and the run already lists more than 100000 pages. *)
Lemma leaf_entry_flag nThisPage nSize nNext nFeatures i buf rw s :
  match leaf_entry nThisPage nSize nNext nFeatures i buf rw s with
  | Next _ _ s' => bInvalidateIndex s' = bInvalidateIndex s
  | Return r s' =>
      r = false /\ bInvalidateIndex s' = true /\ i = 0
      /\ 100000 < Z.of_nat (length (anPagesAtThisValue s))
      /\ anPagesAtThisValue s' = anPagesAtThisValue s
  end.
Proof.
  unfold leaf_entry.
  destruct (map_index _ _) as [nOGRFID oMap].
  match goal with
  | |- context [match ?c with pair _ _ => _ end] => destruct c as [[f2 b2] r2]
  end.
  destruct (negb (bIndexedValueIsValid s) || _); [reflexivity|].
  destruct (i =? 0) eqn:Hi; simpl; [|reflexivity].
  destruct (Z.of_nat (length (anPagesAtThisValue s)) >? 100000) eqn:Hl;
    simpl; [|reflexivity].
  repeat split; lia.
Qed.

Lemma leaf_loop_flag n nThisPage nSize nNext nFeatures : forall i buf rw s,
  match leaf_loop n nThisPage nSize nNext nFeatures i buf rw s with
  | Next _ _ s' => bInvalidateIndex s' = bInvalidateIndex s
  | Return r s' =>
      r = false /\ bInvalidateIndex s' = true
      /\ 100000 < Z.of_nat (length (anPagesAtThisValue s'))
  end.
Proof.
  induction n as [|n IH]; intros i buf rw s; simpl; [reflexivity|].
  pose proof (leaf_entry_flag nThisPage nSize nNext nFeatures i buf rw s) as H.
  destruct (leaf_entry _ _ _ _ _ _ _ _) as [buf' rw' s'|r s'].
  - specialize (IH (i + 1) buf' rw' s').
    destruct (leaf_loop _ _ _ _ _ _ _ _ _); [congruence|exact IH].
  - destruct H as (-> & ? & _ & ? & ->). auto.
Qed.

(** The walk raises the flag only together with a failure, and only with
    more than 100000 pages listed for the run. *)
Definition flag_sound (s : State) (res : bool * State) : Prop :=
  bInvalidateIndex (snd res) = true ->
  bInvalidateIndex s = true
  \/ (fst res = false
      /\ 100000 < Z.of_nat (length (anPagesAtThisValue (snd res)))).

Lemma edit_leaf_flag nThisPage nSize s :
  flag_sound s (edit_leaf nThisPage nSize s).
Proof.
  unfold flag_sound, edit_leaf.
  destruct (nThisPage =? nLastPageVisited s); [simpl; auto|].
  destruct (VSIFReadL _ _) as [buf f1].
  destruct (negb _); [simpl; auto|].
  destruct (Z.gtb (le32 (sub buf 4 4)) _); [simpl; auto|].
  match goal with |- context [leaf_loop ?n ?a ?b ?c ?d ?i ?bf ?rw ?st] =>
    pose proof (leaf_loop_flag n a b c d i bf rw st) as H;
    destruct (leaf_loop n a b c d i bf rw st) as [buf' rw' s'|r s']
  end.
  - simpl in H.
    destruct rw'; [destruct (VSIFWriteL _ _) as [[] f3]|]; simpl;
      intros E; left; congruence.
  - destruct H as (-> & ? & ?). simpl. auto.
Qed.

Lemma children_flag visit buf n :
  (forall p s r s', visit p s = Some (r, s') -> flag_sound s (r, s')) ->
  forall i s r s',
    children visit buf n i s = Some (r, s') -> flag_sound s (r, s').
Proof.
  intros Hv. induction n as [|n IH]; intros i s r s'; simpl.
  - intros [= <- <-]. unfold flag_sound; simpl; auto.
  - destruct (Z.ltb _ 1); [intros [= <- <-]; unfold flag_sound; simpl; auto|].
    destruct (visit _ s) as [[[] s1]|] eqn:E; [| |discriminate].
    + intros H. apply IH in H. apply Hv in E.
      unfold flag_sound in *; simpl in *. intros Hf.
      destruct (H Hf) as [H1|H1]; [|auto].
      destruct (E H1) as [?|[? _]]; [auto|discriminate].
    + intros [= <- <-]. eapply Hv, E.
Qed.

Lemma EditATXOrSPX_page_flag fuel : forall nThisPage nDepth nSize s r s',
  EditATXOrSPX_page fuel nThisPage nDepth nSize s = Some (r, s') ->
  flag_sound s (r, s').
Proof.
  induction fuel as [|fuel IH]; intros nThisPage nDepth nSize s r s';
    cbn [EditATXOrSPX_page]; [discriminate|].
  destruct (nDepth =? 1).
  { intros [= E]. rewrite <- E. apply edit_leaf_flag. }
  destruct (VSIFReadL _ _) as [buf f1].
  destruct (negb _); [intros [= <- <-]; unfold flag_sound; simpl; auto|].
  destruct (Z.gtb _ _); [intros [= <- <-]; unfold flag_sound; simpl; auto|].
  intros H. eapply children_flag in H.
  - exact H.
  - intros p s1 r1 s1'. apply IH.
Qed.

Lemma scan_flag fuel data oMap r s :
  scan fuel data oMap = Some (r, s) ->
  bInvalidateIndex s = true ->
  r = false /\ 100000 < Z.of_nat (length (anPagesAtThisValue s)).
Proof.
  unfold scan.
  destruct (Z.gtb _ 22); [|intros [= <- <-]; discriminate].
  destruct (VSIFReadL 1 _) as [b f2].
  destruct (_ && _); [|intros [= <- <-]; discriminate].
  destruct (VSIFReadL 4 _) as [d f4].
  destruct (Z.eqb _ 4); [|intros [= <- <-]; discriminate].
  intros H Hf. apply EditATXOrSPX_page_flag in H.
  destruct (H Hf) as [H1|H1]; [discriminate|exact H1].
Qed.

(** The walk ends for every file when the fuel covers the depth the
    trailer announces. *)
Lemma children_total visit buf n :
  (forall p s, visit p s <> None) ->
  forall i s, children visit buf n i s <> None.
Proof.
  intros Hv. induction n as [|n IH]; intros i s; simpl; [discriminate|].
  destruct (Z.ltb _ 1); [discriminate|].
  specialize (Hv (le32 (sub buf (8 + 4 * i) 4)) s).
  destruct (visit _ s) as [[[] s1]|]; [apply IH|discriminate|congruence].
Qed.

Lemma EditATXOrSPX_page_total fuel : forall nThisPage nDepth nSize s,
  1 <= nDepth <= Z.of_nat fuel -> nDepth <= INT_MAX ->
  EditATXOrSPX_page fuel nThisPage nDepth nSize s <> None.
Proof.
  unfold INT_MAX.
  induction fuel as [|fuel IH]; intros nThisPage nDepth nSize s Hd Hm;
    cbn [EditATXOrSPX_page]; [lia|].
  destruct (nDepth =? 1) eqn:E; [discriminate|].
  destruct (VSIFReadL _ _) as [buf f1].
  destruct (negb _); [discriminate|].
  destruct (Z.gtb _ _); [discriminate|].
  apply children_total. intros p s1.
  apply Z.eqb_neq in E. unfold to_int32.
  rewrite Z.mod_small by lia. apply IH; lia.
Qed.

Lemma scan_total fuel data oMap :
  let nDepth := le32 (sub data (Z.of_nat (length data) - 16) 4) in
  1 <= nDepth <= Z.of_nat fuel ->
  Z.of_nat (length data) < 18446744073709551616 ->
  scan fuel data oMap <> None.
Proof.
  intros nDepth Hd Hlen. unfold scan.
  destruct (Z.gtb _ 22) eqn:H22; [|discriminate].
  destruct (VSIFReadL 1 _) as [b f2] eqn:Hb.
  destruct (_ && _); [|discriminate].
  destruct (VSIFReadL 4 _) as [d f4] eqn:Hr.
  destruct (Z.eqb _ 4); [|discriminate].
  assert (d = sub data (Z.of_nat (length data) - 16) 4) as ->.
  { unfold VSIFReadL, VSIFSeekL_SET, VSIFSeekL_END, VSIFTellL in *.
    simpl in *. injection Hb as <- <-. injection Hr as <- _. simpl.
    unfold to_uint64. rewrite Z.mod_small by lia. f_equal. lia. }
  apply EditATXOrSPX_page_total; [exact Hd|].
  unfold le32, to_int32, INT_MAX.
  pose proof (Z.mod_pos_bound
    (nth 0 (sub data (Z.of_nat (length data) - 16) 4) 0
     + 256 * nth 1 (sub data (Z.of_nat (length data) - 16) 4) 0
     + 65536 * nth 2 (sub data (Z.of_nat (length data) - 16) 4) 0
     + 16777216 * nth 3 (sub data (Z.of_nat (length data) - 16) 4) 0
     + 2147483648) 4294967296). lia.
Qed.

(** C6, as the code has it. The index file is removed exactly when the
    walk raised the invalidation flag, which it does only for a run of more
    than 100000 pages; after any other failure (a read or write that falls
    short, a malformed page) the file stays, holding the pages rewritten
    until then. *)
Theorem C6_index_removed_only_on_run_limit :
  forall fuel osIndex (fs : gmap string (list Z)) oMap data bRet
         (fs' : gmap string (list Z)) oMap',
    fs !! osIndex = Some data ->
    EditATXOrSPX fuel osIndex fs oMap = Some (bRet, fs', oMap') ->
    match scan fuel data oMap with
    | None => False
    | Some (r, s) =>
        r = bRet
        /\ if bInvalidateIndex s then
             bRet = false
             /\ 100000 < Z.of_nat (length (anPagesAtThisValue s))
             /\ fs' !! osIndex = None
           else fs' !! osIndex = Some (f_data (fp s))
    end.
Proof.
  intros fuel osIndex fs oMap data bRet fs' oMap' Hfs.
  unfold EditATXOrSPX. rewrite Hfs.
  destruct (scan fuel data oMap) as [[r s]|] eqn:Hs; [|discriminate].
  intros [= <- <- <-]. split; [reflexivity|].
  destruct (bInvalidateIndex s) eqn:Hf.
  - destruct (scan_flag _ _ _ _ _ Hs Hf) as [-> Hl].
    repeat split; [exact Hl|].
    unfold VSIUnlink. rewrite lookup_insert_eq. simpl.
    apply lookup_delete_eq.
  - apply lookup_insert_eq.
Qed.

Lemma C6_index_removed_only_on_run_limit_witness :
  match scan 1 index_short [(20, 5)] with
  | None => False
  | Some (r, s) =>
      r = false
      /\ if bInvalidateIndex s then
           false = false
           /\ 100000 < Z.of_nat (length (anPagesAtThisValue s))
           /\ ({["a.atx" := index_short]} : gmap string (list Z)) !! "a.atx"
              = None
         else
           ({["a.atx" := index_short]} : gmap string (list Z)) !! "a.atx"
           = Some (f_data (fp s))
  end.
Proof.
  apply (C6_index_removed_only_on_run_limit 1 "a.atx"
           {["a.atx" := index_short]} [(20, 5)] index_short false
           {["a.atx" := index_short]} [(20, 5)]).
  - vm_compute. reflexivity.
  - vm_compute. reflexivity.
Defined.

(** C6, as stated, fails: a read failure (the root lists page 3, the file
    ends after page 2) makes the repair fail, and the index file is still
    there, page 2 rewritten (20 became 5) and its run not re-sorted. *)
Lemma C6_read_failure_keeps_half_repaired_index :
  (fun '(r, fs, _) =>
     (r, (fun d => map fst (leaf_entries 1 d 2))
           <$> (fs : gmap string (list Z)) !! "a.atx"))
    <$> EditATXOrSPX 2 "a.atx" {["a.atx" := index_truncated]} [(20, 5)]
  = Some (false, Some [10; 5]).
Proof. vm_compute. reflexivity. Qed.





(** ** The replacement of the table *)

Import Hack SwapFixture.

(** C8, as stated, fails: when the second move is refused, the failure is
    reported, and the [.tmp] file, which by then holds the old table, has
    been removed all the same; only the new file is left. *)
Lemma C8_tmp_removed_after_failed_rename :
  let '(bRet2, fs') :=
    replace_gdbtablx target_busy "t.gdbtablx" "t.gdbtablx.new" two_tables in
  bRet2 = false
  /\ fs' !! "t.gdbtablx.tmp" = None
  /\ fs' !! "t.gdbtablx" = None
  /\ fs' !! "t.gdbtablx.new" = Some [2].
Proof. vm_compute. repeat split. Qed.

(** C8, as the code has it. The second move is tried only after the first
    has gone through, the result tells whether both did, and the [.tmp]
    file is removed in every case. *)
Theorem C8_tmp_removed_in_every_case :
  forall permits osGDBTablX osNewGDBTablX (fs : gmap string (list Z)),
    let osGDBTablXTmp := (osGDBTablX +:+ ".tmp")%string in
    let first := VSIRename permits osGDBTablX osGDBTablXTmp fs in
    let second := VSIRename permits osNewGDBTablX osGDBTablX (snd first) in
    let res := replace_gdbtablx permits osGDBTablX osNewGDBTablX fs in
    fst res = (fst first =? 0) && (fst second =? 0)
    /\ snd res !! osGDBTablXTmp = None
    /\ snd res
       = snd (VSIUnlink osGDBTablXTmp
                (if fst first =? 0 then snd second else snd first)).
Proof.
  intros permits a b fs tmp first second res.
  subst res first second. unfold replace_gdbtablx. fold tmp.
  destruct (VSIRename permits a tmp fs) as [r1 fs1].
  cbn [fst snd].
  destruct (r1 =? 0).
  - destruct (VSIRename permits b a fs1) as [r2 fs2]. cbn [fst snd andb].
    repeat split. unfold VSIUnlink.
    destruct (fs2 !! tmp) eqn:E; cbn [snd]; [apply lookup_delete_eq|exact E].
  - cbn [fst snd andb]. repeat split. unfold VSIUnlink.
    destruct (fs1 !! tmp) eqn:E; cbn [snd]; [apply lookup_delete_eq|exact E].
Qed.

(** When both moves go through, the new table is found under the name of
    the old one. *)
Lemma replace_gdbtablx_success permits a b (fs : gmap string (list Z)) :
  b <> (a +:+ ".tmp")%string -> a <> (a +:+ ".tmp")%string ->
  fst (replace_gdbtablx permits a b fs) = true ->
  snd (replace_gdbtablx permits a b fs) !! a = fs !! b
  /\ is_Some (fs !! b).
Proof.
  intros Hb Ha. unfold replace_gdbtablx, VSIRename.
  destruct (fs !! a) as [d|] eqn:Ea; [|cbn; discriminate].
  destruct (permits a _); [|cbn; discriminate].
  cbn [Z.eqb].
  destruct (decide (b = a)) as [->|Hne].
  { rewrite lookup_insert_ne, lookup_delete_eq by congruence.
    cbn. discriminate. }
  rewrite lookup_insert_ne, lookup_delete_ne by congruence.
  destruct (fs !! b) as [d'|] eqn:Eb; [|cbn; discriminate].
  destruct (permits b a); [|cbn; discriminate].
  cbn [Z.eqb fst snd]. intros _. split; [|eauto].
  unfold VSIUnlink.
  rewrite lookup_insert_ne, lookup_delete_ne, lookup_insert_eq by congruence.
  cbn [snd]. rewrite lookup_delete_ne, lookup_insert_eq by congruence.
  reflexivity.
Qed.

(** ** The feature interface *)

Import Layer.




(** ** The row-offset table rewriter *)

Import TablX TablXFixture.

(** C2, as stated, fails: with the remap [5 -> 1000001] and row 1000001 the
    only row of the table, the new header announces 1000000 rows, not 5;
    row 5 of the new table does hold the record of the old row 1000001. *)
Lemma C2_maxIdentifier_is_1000000 :
  header_maxFID table_5_1000001 = 1000001
  /\ read_row table_5_1000001 1000001 = [7; 1; 0; 0]
  /\ (fun '(r, out) => (r, header_maxFID out, read_row out 5))
       <$> EditGDBTablX_bytes false zeros table_5_1000001
             [(5, 1000001)] [(1000001, 5)]
     = Some (true, 1000000, [7; 1; 0; 0]).
Proof. vm_compute. repeat split. Qed.

(** C9, as stated, fails: with both maps empty the function dereferences
    [begin ()] of an empty map before the main loop, and has no defined
    result. *)
Lemma C9_empty_maps_undefined :
  EditGDBTablX_bytes false zeros table_2000 [] [] = None.
Proof. vm_compute. reflexivity. Qed.
